(** * lcoe.py: the data transform behind the LCOE boxplot

    The script is a linear batch transform over one in-memory table:
    filter rows, remap categories, impute the three numeric columns,
    aggregate per category, sort categories by mean.  This file embeds
    that transform (lines 18-104 of lcoe.py, and the mean of line 150),
    together with the arguments the boxplot, tick and limit calls of
    lines 120-128 are given, and proves its properties.

    Modelling choices.
    - A DataFrame is the list of its rows, in index order; only the five
      columns the script reads are kept.  [df.apply(f, axis=1)] is the
      list of [f row], and [df[col] = series] overwrites the column
      position by position (both share the frame's index).
    - The numeric columns are embedded twice.  The first embedding holds
      exact rationals in canonical form ([Qc]) and serves the properties
      that do not turn on rounding, overflow or NaN.  The second, in
      module [F64], holds IEEE 754 binary64 values with correctly
      rounded operations, as pandas does, and serves the properties of
      the imputed cells and of the ranking, where these decide.
    - [isin], [unique] and [sorted] are the library functions the script
      calls; they are modelled by what they compute (membership in a
      list, distinct values in order of first appearance, the stable
      ascending sort by key). *)

From Stdlib Require Import QArith Qcanon Lqa Sorted SpecFloat.
From stdpp Require Import gmap strings list fin_maps.

Local Open Scope Qc_scope.

(** ** Rational arithmetic helpers *)

(** [x > 0] as the script tests it. *)
Definition Qc_pos (x : Qc) : bool := negb (Qle_bool (this x) 0).

(** [a <= b] as a boolean, used by the sort. *)
Definition Qc_leb (a b : Qc) : bool := Qle_bool (this a) (this b).

Definition Qc_of_nat (n : nat) : Qc := Q2Qc (inject_Z (Z.of_nat n)).

Definition two : Qc := Q2Qc 2.

(** ** The table *)

Record Row : Type := mkRow {
  Category : string;
  Type_ : string;
  LCOE : Qc;
  LCOE_Low : Qc;
  LCOE_High : Qc
}.

Abbreviation DataFrame := (list Row).

#[global] Instance Qc_eq_decision : EqDecision Qc := Qc_eq_dec.

#[global] Instance Row_eq_decision : EqDecision Row.
Proof. solve_decision. Defined.

(** [df[col] = series]: positional overwrite of one column. *)
Definition set_Category (r : Row) (c : string) : Row :=
  mkRow c (Type_ r) (LCOE r) (LCOE_Low r) (LCOE_High r).
Definition set_LCOE (r : Row) (v : Qc) : Row :=
  mkRow (Category r) (Type_ r) v (LCOE_Low r) (LCOE_High r).
Definition set_LCOE_Low (r : Row) (v : Qc) : Row :=
  mkRow (Category r) (Type_ r) (LCOE r) v (LCOE_High r).
Definition set_LCOE_High (r : Row) (v : Qc) : Row :=
  mkRow (Category r) (Type_ r) (LCOE r) (LCOE_Low r) v.

(** [df.apply(f, axis=1)] *)
Definition apply_rows {A : Type} (f : Row -> A) (df : DataFrame) : list A :=
  map f df.

(** [df[col] = series], with [upd] the single-cell overwrite of [col]. *)
Definition assign_column {A : Type} (upd : Row -> A -> Row)
    (df : DataFrame) (series : list A) : DataFrame :=
  zip_with upd df series.

(** ** Filter (lines 26-27) *)

Definition skipped_types : list string :=
  ["Depreciated Coal"; "20-30% CCS"; "90+% CCS"; "IGCC with CCS";
   "Supercritical with CCS"; "Combustion Turbine"; "Gas Peaking";
   "Natural Gas CCS"; "Diesel Generator"; "Biomass Microgrid";
   "Incineration with CCS"; "Depreciated Nuclear"; "Advanced Nuclear";
   "Small Modular Reactor"; "Generation IV"; "Sodium-Cooled Fast Reactor";
   "High Temperature Reactor"; "Fusion"; "Refurbishments"; "Organic PV";
   "Solar Updraft Tower"; "Space-Based Solar"; "Distributed Solar - Small";
   "Distributed Solar - Large"; "Community Solar"; "High Altitude";
   "Wind Microgrid"; "Enhanced Geothermal System"; "Hydrothermal Vents";
   "Fuel Cell"; "Solid Oxide Fuel Cells"; "Molten Carbonate Fuel Cells"]%string.

(** [series.isin(values)] on one cell. *)
Definition isin (s : string) (values : list string) : bool :=
  existsb (String.eqb s) values.

(** [df_lcoe[~df_lcoe["Type"].isin(skipped_types)]] *)
Definition filter_skipped (df : DataFrame) : DataFrame :=
  List.filter (fun r => negb (isin (Type_ r) skipped_types)) df.

(** ** Recategorizer (lines 33-65) *)

(** The line break inside some of the plot's category names. *)
Definition nl : string := String (Ascii.ascii_of_nat 10) EmptyString.

Definition category_changes : gmap string string :=
  list_to_map
    [("Photovoltaics", "Solar PV");
     ("Crystalline PV", "Solar PV");
     ("Thin Film PV", "Solar PV");
     ("Perovskite", "Solar PV");
     ("Organic PV", "Solar PV");
     ("PV Fixed", "Solar PV");
     ("PV 1-Axis Tracking", "Solar PV");
     ("PV 2-Axis Tracking", "Solar PV");
     ("Solar Thermal", "Solar," +:+ nl +:+ "Non-PV");
     ("Solar Thermal without Storage", "Solar," +:+ nl +:+ "Non-PV");
     ("Solar Thermal with Storage", "Solar," +:+ nl +:+ "Non-PV");
     ("Concentrated PV", "Solar," +:+ nl +:+ "Non-PV");
     ("Onshore Wind", "Onshore" +:+ nl +:+ "Wind");
     ("Offshore Wind", "Offshore" +:+ nl +:+ "Wind");
     ("Deep Offshore", "Offshore" +:+ nl +:+ "Wind");
     ("Floating Offshore", "Offshore" +:+ nl +:+ "Wind");
     ("Offshore Vertical Axis", "Offshore" +:+ nl +:+ "Wind");
     ("MHK", "Ocean");
     ("Tidal", "Ocean");
     ("Wave", "Ocean");
     ("OTEC", "Ocean");
     ("Osmotic", "Ocean");
     ("Oil Power Plant", "Oil")]%string.

Definition rename_category (row : Row) : string :=
  match category_changes !! Type_ row with
  | Some c => c
  | None => Category row
  end.

(** [df_lcoe["Category"] = df_lcoe.apply(rename_category, axis=1)] *)
Definition recategorize (df : DataFrame) : DataFrame :=
  assign_column set_Category df (apply_rows rename_category df).

(** ** Imputer (lines 74-89)

    In exact arithmetic; [F64.interpolate_lcoe] and its neighbours are
    the same functions on binary64 cells. *)

Definition interpolate_lcoe (row : Row) : Qc :=
  if Qc_pos (LCOE row) then LCOE row
  else (LCOE_Low row + LCOE_High row) / two.

Definition interpolate_lcoe_low (row : Row) : Qc :=
  if Qc_pos (LCOE_Low row) then LCOE_Low row else LCOE row.

Definition interpolate_lcoe_high (row : Row) : Qc :=
  if Qc_pos (LCOE_High row) then LCOE_High row else LCOE row.

(** The three assignments of lines 87-89; each [apply] reads the frame
    the previous assignment left. *)
Definition impute (df : DataFrame) : DataFrame :=
  let df1 := assign_column set_LCOE df (apply_rows interpolate_lcoe df) in
  let df2 := assign_column set_LCOE_Low df1 (apply_rows interpolate_lcoe_low df1) in
  assign_column set_LCOE_High df2 (apply_rows interpolate_lcoe_high df2).

(** What the three passes do to one row. *)
Definition impute_row (r : Row) : Row :=
  let r1 := set_LCOE r (interpolate_lcoe r) in
  let r2 := set_LCOE_Low r1 (interpolate_lcoe_low r1) in
  set_LCOE_High r2 (interpolate_lcoe_high r2).

(** ** The script's variables, as functions of the frame read at line 18 *)

(** [df_lcoe] after line 27. *)
Definition df_filtered (csv : DataFrame) : DataFrame := filter_skipped csv.

(** [df_lcoe] after line 65. *)
Definition df_recategorized (csv : DataFrame) : DataFrame :=
  recategorize (df_filtered csv).

(** [df_lcoe] after line 89, as the aggregator reads it. *)
Definition df_lcoe (csv : DataFrame) : DataFrame :=
  impute (df_recategorized csv).

(** ** Aggregator (lines 68, 92-98) *)

(** [series.unique()]: the distinct values, in order of first appearance. *)
Fixpoint unique (l : list string) : list string :=
  match l with
  | [] => []
  | x :: t => x :: List.filter (fun y => negb (String.eqb y x)) (unique t)
  end.

(** Line 68: the keys are taken after the recategorization and before
    the imputation. *)
Definition lcoe_keys (csv : DataFrame) : list string :=
  unique (map Category (df_recategorized csv)).

(** [df] stands for the global [df_lcoe] the function reads. *)
Definition get_lcoe_by_category (df : DataFrame) (category : string) : list Qc :=
  let df_cat := List.filter (fun r => String.eqb (Category r) category) df in
  let lcoe_low := map LCOE_Low df_cat in
  let lcoe := map LCOE df_cat in
  let lcoe_high := map LCOE_High df_cat in
  lcoe_low ++ lcoe ++ lcoe_high.

(** Line 98. *)
Definition lcoe_values (csv : DataFrame) : list (list Qc) :=
  map (get_lcoe_by_category (df_lcoe csv)) (lcoe_keys csv).

(** ** Ranker (lines 101-104)

    In exact arithmetic, where the sort key is minus the mean; on
    binary64 cells ([F64.rank_key], [F64.mean_value]) the two differ by
    rounding. *)

(** Python's [sum]: left to right, starting from 0. *)
Definition sum (xs : list Qc) : Qc := fold_left Qcplus xs 0.

(** The sort key [-sum(x[1]/len(x[1]))]: the array is divided element by
    element, then summed. *)
Definition rank_key (x : string * list Qc) : Qc :=
  - sum (map (fun v => v / Qc_of_nat (length (snd x))) (snd x)).

Section Sorted.
Context {A : Type} (key : A -> Qc).

(** Insertion in front of the first element whose key is not smaller:
    an element keeps its place before later elements of equal key. *)
Fixpoint insert_by (x : A) (l : list A) : list A :=
  match l with
  | [] => [x]
  | y :: t => if Qc_leb (key x) (key y) then x :: y :: t
              else y :: insert_by x t
  end.

(** [sorted(l, key=key)]: ascending in the key, stable. *)
Fixpoint sorted (l : list A) : list A :=
  match l with
  | [] => []
  | x :: t => insert_by x (sorted t)
  end.
End Sorted.

(** Lines 101-102. *)
Definition keyed_lcoe_values (csv : DataFrame) : list (string * list Qc) :=
  sorted rank_key (zip (lcoe_keys csv) (lcoe_values csv)).

(** [lcoe_values] and [lcoe_keys] as rebound by lines 103-104. *)
Definition lcoe_values_ranked (csv : DataFrame) : list (list Qc) :=
  map snd (keyed_lcoe_values csv).
Definition lcoe_keys_ranked (csv : DataFrame) : list string :=
  map fst (keyed_lcoe_values csv).

(** Arithmetic mean, [sum(a)/len(a)] (line 150); on an empty array the
    script's division raises, which is [None] here. *)
Definition mean_value (a : list Qc) : option Qc :=
  match a with
  | [] => None
  | _ => Some (sum a / Qc_of_nat (length a))
  end.

(** ** What the renderer is handed (lines 120-128) *)

(** Line 120: the values of the illustrative key box. *)
Definition key_box_values : list Qc :=
  map (fun z => Q2Qc (inject_Z z))
    [26; 27; 28; 29; 30; 31; 32; 33; 34; 35; 36; 37; 38; 39; 47; 48; 79]%Z.

Definition half : Qc := Q2Qc (1 # 2).

(** Line 121, first argument: [lcoe_values+[key_box_values]]. *)
Definition boxplot_data (csv : DataFrame) : list (list Qc) :=
  lcoe_values_ranked csv ++ [key_box_values].

(** Line 121, [positions]:
    [list(range(1,len(lcoe_values)+1))+[len(lcoe_values)-0.5]]. *)
Definition boxplot_positions (csv : DataFrame) : list Qc :=
  let n := length (lcoe_values_ranked csv) in
  map Qc_of_nat (seq 1 n) ++ [Qc_of_nat n - half].

(** Line 126: [plt.yticks(range(1,len(lcoe_values)+1),lcoe_keys)], the
    tick places and their labels. *)
Definition yticks (csv : DataFrame) : list Qc * list string :=
  (map Qc_of_nat (seq 1 (length (lcoe_values_ranked csv))),
   lcoe_keys_ranked csv).

(** Line 128: [plt.ylim(0.001,len(lcoe_keys)+0.5)]. *)
Definition ylim (csv : DataFrame) : Qc * Qc :=
  (Q2Qc (1 # 1000), Qc_of_nat (length (lcoe_keys_ranked csv)) + half).

(** ** The transform on binary64 cells

    pandas holds the three numeric columns as float64.  Where rounding,
    overflow or NaN decide a property, the script is embedded a second
    time with IEEE 754 binary64 cells: [spec_float] at precision 53 and
    maximal exponent 1024, with the library's correctly rounded
    (to nearest, ties to even) operations.  The functions keep the
    source's names inside the module. *)

Module F64.

Definition prec : Z := 53.
Definition emax : Z := 1024.

Definition zero : spec_float := S754_zero false.
Definition add (x y : spec_float) : spec_float := SFadd prec emax x y.
Definition div (x y : spec_float) : spec_float := SFdiv prec emax x y.
Definition opp (x : spec_float) : spec_float := SFopp x.
Definition ltb (x y : spec_float) : bool := SFltb x y.
Definition leb (x y : spec_float) : bool := SFleb x y.


(** An integer as a float ([2], [len(...)]). *)
Definition of_Z (z : Z) : spec_float := binary_normalize prec emax z 0 false.
Definition of_nat (n : nat) : spec_float := of_Z (Z.of_nat n).

(** The decimal literal [n / 10^k], rounded once (as a literal is). *)
Definition dec (n : Z) (k : nat) : spec_float :=
  div (of_Z n) (of_Z (10 ^ Z.of_nat k)).

#[global] Instance spec_float_eq_decision : EqDecision spec_float.
Proof. solve_decision. Defined.

Record Row : Type := mkRow {
  Category : string;
  Type_ : string;
  LCOE : spec_float;
  LCOE_Low : spec_float;
  LCOE_High : spec_float
}.

Definition set_Category (r : Row) (c : string) : Row :=
  mkRow c (Type_ r) (LCOE r) (LCOE_Low r) (LCOE_High r).
Definition set_LCOE (r : Row) (v : spec_float) : Row :=
  mkRow (Category r) (Type_ r) v (LCOE_Low r) (LCOE_High r).
Definition set_LCOE_Low (r : Row) (v : spec_float) : Row :=
  mkRow (Category r) (Type_ r) (LCOE r) v (LCOE_High r).
Definition set_LCOE_High (r : Row) (v : spec_float) : Row :=
  mkRow (Category r) (Type_ r) (LCOE r) (LCOE_Low r) v.

(** [df.apply(f, axis=1)] *)
Definition apply_rows {A : Type} (f : Row -> A) (df : list Row) : list A :=
  map f df.

(** [df[col] = series] *)
Definition assign_column {A : Type} (upd : Row -> A -> Row)
    (df : list Row) (series : list A) : list Row :=
  zip_with upd df series.

(** Line 27. *)
Definition filter_skipped (df : list Row) : list Row :=
  List.filter (fun r => negb (isin (Type_ r) skipped_types)) df.

(** Lines 60-65. *)
Definition rename_category (row : Row) : string :=
  match category_changes !! Type_ row with
  | Some c => c
  | None => Category row
  end.

Definition recategorize (df : list Row) : list Row :=
  assign_column set_Category df (apply_rows rename_category df).

(** Lines 74-85; [x > 0] is false for a NaN. *)
Definition interpolate_lcoe (row : Row) : spec_float :=
  if ltb zero (LCOE row) then LCOE row
  else div (add (LCOE_Low row) (LCOE_High row)) (of_Z 2).

Definition interpolate_lcoe_low (row : Row) : spec_float :=
  if ltb zero (LCOE_Low row) then LCOE_Low row else LCOE row.

Definition interpolate_lcoe_high (row : Row) : spec_float :=
  if ltb zero (LCOE_High row) then LCOE_High row else LCOE row.

(** Lines 87-89. *)
Definition impute (df : list Row) : list Row :=
  let df1 := assign_column set_LCOE df (apply_rows interpolate_lcoe df) in
  let df2 := assign_column set_LCOE_Low df1 (apply_rows interpolate_lcoe_low df1) in
  assign_column set_LCOE_High df2 (apply_rows interpolate_lcoe_high df2).

(** What the three passes do to one row. *)
Definition impute_row (r : Row) : Row :=
  let r1 := set_LCOE r (interpolate_lcoe r) in
  let r2 := set_LCOE_Low r1 (interpolate_lcoe_low r1) in
  set_LCOE_High r2 (interpolate_lcoe_high r2).

Definition df_filtered (csv : list Row) : list Row := filter_skipped csv.
Definition df_recategorized (csv : list Row) : list Row :=
  recategorize (df_filtered csv).
Definition df_lcoe (csv : list Row) : list Row :=
  impute (df_recategorized csv).

(** Line 68. *)
Definition lcoe_keys (csv : list Row) : list string :=
  unique (map Category (df_recategorized csv)).

(** Lines 92-97. *)
Definition get_lcoe_by_category (df : list Row) (category : string)
    : list spec_float :=
  let df_cat := List.filter (fun r => String.eqb (Category r) category) df in
  let lcoe_low := map LCOE_Low df_cat in
  let lcoe := map LCOE df_cat in
  let lcoe_high := map LCOE_High df_cat in
  lcoe_low ++ lcoe ++ lcoe_high.

(** Line 98. *)
Definition lcoe_values (csv : list Row) : list (list spec_float) :=
  map (get_lcoe_by_category (df_lcoe csv)) (lcoe_keys csv).

(** Python's [sum]: left to right, starting from 0. *)
Definition sum (xs : list spec_float) : spec_float := fold_left add xs zero.

(** [sum(a/len(a))], the value the sort key negates: each entry is
    divided by the length, then the quotients are added. *)
Definition sum_of_shares (a : list spec_float) : spec_float :=
  sum (map (fun v => div v (of_nat (length a))) a).

(** The sort key of line 102, [-sum(x[1]/len(x[1]))]. *)
Definition rank_key (x : string * list spec_float) : spec_float :=
  opp (sum_of_shares (snd x)).

Section Sorted.
Context {A : Type} (key : A -> spec_float).

(** An element passes the elements whose key is smaller ([<], the only
    comparison the sort makes) and stops at the first one whose key is
    not: it stays behind earlier elements that are not greater. *)
Fixpoint insert_by (x : A) (l : list A) : list A :=
  match l with
  | [] => [x]
  | y :: t => if ltb (key y) (key x) then y :: insert_by x t
              else x :: y :: t
  end.

(** [sorted(l, key=key)]: ascending in the key, stable; the result the
    library's sort gives when the keys are totally ordered by [<], that
    is when none is a NaN. *)
Fixpoint sorted (l : list A) : list A :=
  match l with
  | [] => []
  | x :: t => insert_by x (sorted t)
  end.
End Sorted.

(** Lines 101-102. *)
Definition keyed_lcoe_values (csv : list Row)
    : list (string * list spec_float) :=
  sorted rank_key (zip (lcoe_keys csv) (lcoe_values csv)).

(** Line 150: [sum(a)/len(a)]; the division raises on an empty array. *)
Definition mean_value (a : list spec_float) : option spec_float :=
  match a with
  | [] => None
  | _ => Some (div (sum a) (of_nat (length a)))
  end.

(** [x > 0]: the cell is present. *)
Definition present (x : spec_float) : Prop := ltb zero x = true.

Definition all_present (r : Row) : Prop :=
  present (LCOE r) /\ present (LCOE_Low r) /\ present (LCOE_High r).

Definition ordered (r : Row) : Prop :=
  leb (LCOE_Low r) (LCOE r) = true /\ leb (LCOE r) (LCOE_High r) = true.



End F64.

(** ** Vocabulary of the properties *)

(** The category names the recategorizer can assign. *)
Definition plot_categories : list string :=
  ["Solar PV"; "Solar," +:+ nl +:+ "Non-PV"; "Onshore" +:+ nl +:+ "Wind";
   "Offshore" +:+ nl +:+ "Wind"; "Ocean"; "Oil"]%string.

Definition all_present (r : Row) : Prop :=
  0 < LCOE r /\ 0 < LCOE_Low r /\ 0 < LCOE_High r.

Definition ordered (r : Row) : Prop :=
  LCOE_Low r <= LCOE r /\ LCOE r <= LCOE_High r.

(** A study gives a point estimate, or a range, or both (comment of
    lines 70-73). *)
Definition reported (r : Row) : Prop :=
  0 < LCOE r \/ (0 < LCOE_Low r /\ 0 < LCOE_High r).

Definition nonneg (r : Row) : Prop :=
  0 <= LCOE r /\ 0 <= LCOE_Low r /\ 0 <= LCOE_High r.

(** The rows of one category. *)
Definition rows_of (c : string) (df : DataFrame) : DataFrame :=
  List.filter (fun r => String.eqb (Category r) c) df.

(** * Properties *)

(** ** The model on small inputs *)

Example unique_first_appearance :
  unique ["b"; "a"; "b"; "c"; "a"]%string = ["b"; "a"; "c"]%string.
Proof. reflexivity. Qed.

(** Equal keys keep their input order; smaller keys come first. *)
Example sorted_stable :
  sorted (fun x : Qc * string => fst x)
    [(1, "x"); (0, "y"); (1, "z"); (0, "w")]%string
  = [(0, "y"); (0, "w"); (1, "x"); (1, "z")]%string.
Proof. vm_compute. reflexivity. Qed.

(** A frame of four studies: the fusion row is dropped, the PV row is
    renamed, the coal rows are pooled, and coal (mean 27/2) is ranked
    before solar PV (mean 5). *)
Example keyed_lcoe_values_small :
  keyed_lcoe_values
    [mkRow "Coal" "IGCC" 0 (Q2Qc 4) (Q2Qc 10);
     mkRow "Solar" "PV Fixed" (Q2Qc 5) 0 0;
     mkRow "Coal" "Supercritical" (Q2Qc 20) 0 0;
     mkRow "Nuclear" "Fusion" (Q2Qc 20) 0 0]
  = [("Coal"%string,
      [Q2Qc 4; Q2Qc 20; Q2Qc 7; Q2Qc 20; Q2Qc 10; Q2Qc 20]);
     ("Solar PV"%string, [Q2Qc 5; Q2Qc 5; Q2Qc 5])].
Proof. compute_done. Qed.

(** ** Arithmetic facts *)

Lemma Qc_pos_true (x : Qc) : Qc_pos x = true <-> 0 < x.
Proof.
  unfold Qc_pos, Qclt. rewrite negb_true_iff. change (this 0) with 0%Q.
  rewrite <- not_true_iff_false, Qle_bool_iff. split.
  - apply Qnot_le_lt.
  - intros H H'. exact (Qlt_not_le _ _ H H').
Qed.

Lemma Qc_pos_false (x : Qc) : Qc_pos x = false <-> x <= 0.
Proof.
  unfold Qc_pos, Qcle. rewrite negb_false_iff. change (this 0) with 0%Q.
  apply Qle_bool_iff.
Qed.

Lemma Qc_leb_le (a b : Qc) : Qc_leb a b = true <-> a <= b.
Proof. unfold Qc_leb, Qcle. apply Qle_bool_iff. Qed.

Lemma Qc_leb_gt (a b : Qc) : Qc_leb a b = false <-> b < a.
Proof.
  rewrite <- not_true_iff_false, Qc_leb_le. split.
  - apply Qcnot_le_lt.
  - intros H H'. exact (Qclt_not_le _ _ H H').
Qed.

(** Goals and hypotheses over [Qc] are moved to [Q], where [lra] decides
    linear arithmetic. *)
Lemma this_plus (a b : Qc) : (this (a + b) == this a + this b)%Q.
Proof. apply Qred_correct. Qed.

Lemma this_mult (a b : Qc) : (this (a * b) == this a * this b)%Q.
Proof. apply Qred_correct. Qed.

Lemma this_opp (a : Qc) : (this (- a) == - this a)%Q.
Proof. apply Qred_correct. Qed.

Lemma this_half (a : Qc) : (this (a / two) == this a * (1 # 2))%Q.
Proof. unfold Qcdiv. rewrite this_mult. reflexivity. Qed.

Lemma this_zero : this 0 = 0%Q.
Proof. reflexivity. Qed.

Lemma this_eq (a b : Qc) : a = b <-> (this a == this b)%Q.
Proof. split; [intros ->; reflexivity | apply Qc_is_canon]. Qed.

Create Rewrite HintDb qc2q.
#[local] Hint Rewrite this_half this_plus this_opp this_zero : qc2q.

Ltac qc_lra :=
  unfold Qcle, Qclt in *; rewrite ?this_eq in *;
  autorewrite with qc2q in *; lra.

Lemma midpoint_pos (l h : Qc) : 0 < l -> 0 < h -> 0 < (l + h) / two.
Proof. intros. qc_lra. Qed.

Lemma midpoint_same (m : Qc) : (m + m) / two = m.
Proof. qc_lra. Qed.

Lemma midpoint_fixed (a b : Qc) : (a + (a + b) / two) / two = (a + b) / two -> a = b.
Proof. intros. qc_lra. Qed.

(** ** Column assignment *)

Lemma lookup_map {A B : Type} (f : A -> B) (l : list A) (i : nat) :
  map f l !! i = f <$> l !! i.
Proof. exact (list_lookup_fmap f l i). Qed.

Lemma assign_apply {A : Type} (upd : Row -> A -> Row) (f : Row -> A) (df : DataFrame) :
  assign_column upd df (apply_rows f df) = map (fun r => upd r (f r)) df.
Proof.
  unfold assign_column, apply_rows.
  induction df as [|r df IH]; simpl; [reflexivity | now rewrite IH].
Qed.

(** The three column passes amount to one pass of [impute_row]. *)
Lemma impute_rows (df : DataFrame) : impute df = map impute_row df.
Proof.
  unfold impute. rewrite !assign_apply, !map_map. reflexivity.
Qed.

Lemma recategorize_rows (df : DataFrame) :
  recategorize df = map (fun r => set_Category r (rename_category r)) df.
Proof. apply assign_apply. Qed.

(** Rows are equal when their cells are; numeric cells are compared as
    rationals. *)
Lemma row_eq (c t : string) (p p' l l' h h' : Qc) :
  (p == p')%Q -> (l == l')%Q -> (h == h')%Q ->
  mkRow c t p l h = mkRow c t p' l' h'.
Proof.
  intros Hp Hl Hh.
  apply Qc_is_canon in Hp, Hl, Hh. now subst.
Qed.

(** ** Filter *)

Lemma isin_elem_of (s : string) (values : list string) :
  isin s values = true <-> s ∈ values.
Proof.
  unfold isin. rewrite existsb_exists, list_elem_of_In. split.
  - intros (x & Hx & E). apply String.eqb_eq in E. now subst.
  - intros H. exists s. split; [exact H | apply String.eqb_refl].
Qed.

Lemma filter_skipped_elem_of (df : DataFrame) (r : Row) :
  r ∈ filter_skipped df <-> r ∈ df /\ Type_ r ∉ skipped_types.
Proof.
  unfold filter_skipped.
  rewrite <- isin_elem_of, not_true_iff_false, <- negb_true_iff.
  rewrite !list_elem_of_In. apply filter_In.
Qed.

Lemma filter_skipped_drop (df1 df2 : DataFrame) (r : Row) :
  Type_ r ∈ skipped_types ->
  filter_skipped (df1 ++ r :: df2) = filter_skipped (df1 ++ df2).
Proof.
  intros H. apply isin_elem_of in H. unfold filter_skipped.
  rewrite !List.filter_app. cbn [List.filter]. now rewrite H.
Qed.

Lemma recategorize_Type (df : DataFrame) :
  map Type_ (recategorize df) = map Type_ df.
Proof. rewrite recategorize_rows, map_map. reflexivity. Qed.

Lemma impute_Type (df : DataFrame) : map Type_ (impute df) = map Type_ df.
Proof. rewrite impute_rows, map_map. reflexivity. Qed.

Lemma impute_Category (df : DataFrame) :
  map Category (impute df) = map Category df.
Proof. rewrite impute_rows, map_map. reflexivity. Qed.

Lemma Forall_Type (P : string -> Prop) (df : DataFrame) :
  Forall (fun r => P (Type_ r)) df <-> Forall P (map Type_ df).
Proof. symmetry. apply Forall_map. Qed.

(** ** Distinct keys and group sizes *)

Lemma unique_In (x : string) (l : list string) : In x (unique l) <-> In x l.
Proof.
  induction l as [|a t IH]; simpl; [reflexivity|].
  rewrite filter_In, IH, negb_true_iff, String.eqb_neq.
  destruct (String.eqb_spec a x) as [->|Hne]; [tauto|].
  split; [tauto|]. intros [H|H]; [tauto|]. right. split; [exact H|congruence].
Qed.

Lemma unique_NoDup (l : list string) : List.NoDup (unique l).
Proof.
  induction l as [|a t IH]; simpl; constructor.
  - rewrite filter_In, String.eqb_refl. simpl. intros [_ H]. discriminate H.
  - now apply List.NoDup_filter.
Qed.

Lemma get_lcoe_by_category_length (df : DataFrame) (c : string) :
  length (get_lcoe_by_category df c) = (3 * length (rows_of c df))%nat.
Proof.
  unfold get_lcoe_by_category, rows_of.
  rewrite !length_app, !length_map. lia.
Qed.

Lemma rows_of_nonempty (c : string) (df : DataFrame) :
  In c (map Category df) -> (1 <= length (rows_of c df))%nat.
Proof.
  unfold rows_of. induction df as [|r df IH]; simpl; [tauto|].
  intros [H|H].
  - subst c. rewrite String.eqb_refl. simpl. lia.
  - destruct (String.eqb (Category r) c); simpl; [lia | now apply IH].
Qed.

(** Exactly one key of a duplicate-free list equals a given member. *)
Lemma sum_indicator (c : string) (ks : list string) :
  List.NoDup ks -> In c ks ->
  sum_list (map (fun k => if String.eqb c k then 1 else 0)%nat ks) = 1%nat.
Proof.
  induction 1 as [|k ks Hk Hnd IH]; simpl; [tauto|].
  intros [->|Hin].
  - rewrite String.eqb_refl. f_equal.
    clear IH Hnd. induction ks as [|k ks IH]; simpl; [reflexivity|].
    destruct (String.eqb_spec c k) as [->|_].
    + exfalso. apply Hk. now left.
    + apply IH. intros H. apply Hk. now right.
  - destruct (String.eqb_spec c k) as [->|_]; [contradiction|].
    simpl. now apply IH.
Qed.

Lemma sum_list_map_plus {A : Type} (f g : A -> nat) (l : list A) :
  sum_list (map (fun x => f x + g x)%nat l)
  = (sum_list (map f l) + sum_list (map g l))%nat.
Proof. induction l as [|x l IH]; simpl; [reflexivity | rewrite IH; lia]. Qed.

Lemma sum_list_map_scale {A : Type} (n : nat) (f : A -> nat) (l : list A) :
  sum_list (map (fun x => n * f x)%nat l) = (n * sum_list (map f l))%nat.
Proof. induction l as [|x l IH]; simpl; [lia | rewrite IH; lia]. Qed.

Lemma rows_of_cons (k : string) (r : Row) (df : DataFrame) :
  length (rows_of k (r :: df))
  = ((if String.eqb (Category r) k then 1 else 0) + length (rows_of k df))%nat.
Proof. unfold rows_of. simpl. now destruct (String.eqb (Category r) k). Qed.

(** Keys that are distinct and cover the Category column split the
    frame: the group sizes add up to the number of rows. *)
Lemma rows_of_partition (ks : list string) (df : DataFrame) :
  List.NoDup ks ->
  (forall c, In c (map Category df) -> In c ks) ->
  sum_list (map (fun k => length (rows_of k df)) ks) = length df.
Proof.
  intros Hnd. induction df as [|r df IH]; intros Hcov.
  - unfold rows_of. simpl. clear. induction ks; simpl; [reflexivity|assumption].
  - rewrite (map_ext _ _ (fun k => rows_of_cons k r df)), sum_list_map_plus.
    rewrite IH by (intros c Hc; apply Hcov; now right).
    rewrite (sum_indicator (Category r) ks Hnd) by (apply Hcov; now left).
    reflexivity.
Qed.

Lemma df_lcoe_Category (csv : DataFrame) :
  map Category (df_lcoe csv) = map Category (df_recategorized csv).
Proof. apply impute_Category. Qed.

Lemma df_lcoe_length (csv : DataFrame) :
  length (df_lcoe csv) = length (df_filtered csv).
Proof.
  unfold df_lcoe, df_recategorized.
  now rewrite impute_rows, recategorize_rows, !length_map.
Qed.

Lemma lcoe_keys_In (csv : DataFrame) (k : string) :
  In k (lcoe_keys csv) <-> In k (map Category (df_lcoe csv)).
Proof. unfold lcoe_keys. now rewrite unique_In, df_lcoe_Category. Qed.

Lemma rows_of_impute (c : string) (df : DataFrame) :
  rows_of c (impute df) = map impute_row (rows_of c df).
Proof.
  rewrite impute_rows. unfold rows_of.
  induction df as [|r df IH]; simpl; [reflexivity|].
  destruct (String.eqb (Category r) c); simpl; now rewrite IH.
Qed.

Lemma zip_map_In {A B : Type} (f : A -> B) (ks : list A) (x : A * B) :
  In x (zip ks (map f ks)) <-> In (fst x) ks /\ snd x = f (fst x).
Proof.
  destruct x as [k v]. simpl. induction ks as [|a ks IH]; simpl; [tauto|].
  rewrite IH. split.
  - intros [E | [H1 H2]]; [inversion E; subst; tauto | tauto].
  - intros [[E | H1] H2]; [left; congruence | tauto].
Qed.

Lemma Qc_of_nat_nonzero (n : nat) : (1 <= n)%nat -> Qc_of_nat n <> 0.
Proof.
  intros Hn H. apply this_eq in H. unfold Qc_of_nat in H. simpl in H.
  rewrite Qred_correct in H. unfold Qeq in H. simpl in H. lia.
Qed.

(** ** The sort *)

Section SortedFacts.
Context {A : Type} (key : A -> Qc).

Lemma insert_by_Permutation (x : A) (l : list A) :
  Permutation (insert_by key x l) (x :: l).
Proof.
  induction l as [|y l IH]; simpl; [reflexivity|].
  destruct (Qc_leb (key x) (key y)); [reflexivity|].
  rewrite IH. apply perm_swap.
Qed.

Lemma sorted_Permutation (l : list A) : Permutation (sorted key l) l.
Proof.
  induction l as [|x l IH]; simpl; [reflexivity|].
  rewrite insert_by_Permutation. now constructor.
Qed.

End SortedFacts.

(** ** Imputation *)

(** Case analysis on the three presence tests of a row. *)
Ltac split_presence :=
  unfold impute_row, interpolate_lcoe, interpolate_lcoe_low,
    interpolate_lcoe_high, set_LCOE, set_LCOE_Low, set_LCOE_High; simpl;
  repeat match goal with
  | |- context [Qc_pos ?x] =>
      let E := fresh "E" in
      destruct (Qc_pos x) eqn:E;
      [apply Qc_pos_true in E | apply Qc_pos_false in E]; simpl
  end.

Lemma impute_row_present (r : Row) : reported r -> all_present (impute_row r).
Proof.
  unfold reported, all_present. intros Hr.
  assert (Hp : 0 < LCOE (impute_row r)).
  { split_presence; [assumption|].
    destruct Hr as [Hr | [Hl Hh]]; [qc_lra | now apply midpoint_pos]. }
  revert Hp. split_presence; intros Hp; repeat split; assumption.
Qed.

(** Exactly when a second imputation leaves a row alone: the imputed
    point is present, or neither bound was. *)
Lemma impute_row_twice (r : Row) :
  impute_row (impute_row r) = impute_row r <->
  0 < LCOE (impute_row r) \/ (LCOE_Low r <= 0 /\ LCOE_High r <= 0).
Proof.
  destruct r as [c t p l h]. split.
  - intros H.
    assert (Hp : LCOE (impute_row (impute_row (mkRow c t p l h)))
                 = LCOE (impute_row (mkRow c t p l h))) by now rewrite H.
    clear H. revert Hp. split_presence; intros Hp;
      solve [ left; assumption | right; split; assumption
            | exfalso; qc_lra ].
  - simpl. split_presence; intros H;
      solve [ reflexivity
            | rewrite midpoint_same; reflexivity
            | exfalso; destruct H as [H | [H1 H2]]; qc_lra ].
Qed.

Lemma impute_row_idempotent (r : Row) :
  nonneg r -> impute_row (impute_row r) = impute_row r.
Proof.
  intros (Hp & Hl & Hh). apply impute_row_twice.
  destruct r as [c t p l h]. simpl in *.
  destruct (Qclt_le_dec 0 l) as [Hl'|Hl'], (Qclt_le_dec 0 h) as [Hh'|Hh'];
    split_presence;
    solve [ left; assumption
          | right; split; assumption
          | left; qc_lra
          | right; split; qc_lra ].
Qed.

(** C2. The two worked examples: a row with the point missing and the
    bounds 4 and 10 is imputed to point 7 with the bounds kept; a row
    with only the point 5 is imputed to 5 in all three columns. *)
Theorem imputation_worked_examples (c t : string) :
  impute [mkRow c t 0 (Q2Qc 4) (Q2Qc 10)]
    = [mkRow c t (Q2Qc 7) (Q2Qc 4) (Q2Qc 10)] /\
  impute [mkRow c t (Q2Qc 5) 0 0]
    = [mkRow c t (Q2Qc 5) (Q2Qc 5) (Q2Qc 5)].
Proof.
  split; rewrite impute_rows; cbn [map]; f_equal;
    apply row_eq; vm_compute; reflexivity.
Qed.

(** C3, as stated, fails: with the point missing, the low bound 2 and
    a negative (hence missing) high bound -6, the first imputation gives
    the point -2 and the second one the point 0. *)
Lemma imputation_twice_differs :
  let df := [mkRow "Coal" "IGCC" 0 (Q2Qc 2) (Q2Qc (-6))] in
  impute df = [mkRow "Coal" "IGCC" (Q2Qc (-2)) (Q2Qc 2) (Q2Qc (-2))] /\
  impute (impute df) = [mkRow "Coal" "IGCC" 0 (Q2Qc 2) 0] /\
  impute (impute df) <> impute df.
Proof. simpl. repeat split; compute_done. Qed.

(** C3, amended. On a frame whose numeric cells are all non-negative
    (a missing value being 0), running the three imputation passes a
    second time changes nothing. *)
Theorem imputation_idempotent (df : DataFrame) :
  Forall nonneg df -> impute (impute df) = impute df.
Proof.
  intros H. rewrite !impute_rows, map_map.
  induction H as [|r df Hr _ IH]; simpl; [reflexivity|].
  rewrite IH. f_equal. now apply impute_row_idempotent.
Qed.

Lemma imputation_idempotent_witness :
  let df := [mkRow "Coal" "IGCC" 0 (Q2Qc 4) (Q2Qc 10);
             mkRow "Solar" "PV Fixed" (Q2Qc 5) 0 0] in
  Forall nonneg df /\ impute (impute df) = impute df.
Proof.
  simpl.
  assert (H : Forall nonneg [mkRow "Coal" "IGCC" 0 (Q2Qc 4) (Q2Qc 10);
                             mkRow "Solar" "PV Fixed" (Q2Qc 5) 0 0]).
  { repeat constructor; simpl; vm_compute; discriminate. }
  split; [exact H | exact (imputation_idempotent _ H)].
Defined.

(** C9. Imputation writes only the three numeric columns: the frame
    keeps its rows, in the same order, with the same Category and Type
    in each. *)
Theorem imputation_frame (df : DataFrame) :
  length (impute df) = length df /\
  map Category (impute df) = map Category df /\
  map Type_ (impute df) = map Type_ df /\
  (forall i, impute df !! i = impute_row <$> df !! i).
Proof.
  rewrite impute_rows. repeat split.
  - apply length_map.
  - rewrite map_map. reflexivity.
  - rewrite map_map. reflexivity.
  - intros i. apply lookup_map.
Qed.

(** ** Filter and recategorizer *)

(** C4. After the filter no row has a Type of the exclusion list, and
    this stays so in the recategorized and in the imputed frame; a row
    of an excluded Type has no effect on anything computed downstream:
    the input frame with that row removed gives the same filtered frame
    and the same ranked aggregate. *)
Theorem filter_excludes_skipped (df : DataFrame) :
  Forall (fun r => Type_ r ∉ skipped_types) (filter_skipped df) /\
  Forall (fun r => Type_ r ∉ skipped_types) (df_recategorized df) /\
  Forall (fun r => Type_ r ∉ skipped_types) (df_lcoe df) /\
  (forall df1 r df2,
     df = df1 ++ r :: df2 -> Type_ r ∈ skipped_types ->
     filter_skipped df = filter_skipped (df1 ++ df2) /\
     keyed_lcoe_values df = keyed_lcoe_values (df1 ++ df2)).
Proof.
  assert (H : Forall (fun r => Type_ r ∉ skipped_types) (filter_skipped df)).
  { apply Forall_forall. intros r Hr.
    apply filter_skipped_elem_of in Hr. apply Hr. }
  pose proof (Forall_Type (fun t => t ∉ skipped_types)) as FT.
  repeat split.
  - exact H.
  - apply FT. unfold df_recategorized, df_filtered.
    rewrite recategorize_Type. now apply FT.
  - apply FT. unfold df_lcoe, df_recategorized, df_filtered.
    rewrite impute_Type, recategorize_Type. now apply FT.
  - subst df. now apply filter_skipped_drop.
  - subst df.
    unfold keyed_lcoe_values, lcoe_values, lcoe_keys, df_lcoe,
      df_recategorized, df_filtered.
    now rewrite filter_skipped_drop.
Qed.

(** C5. The recategorizer gives each row the Category its Type is
    mapped to by [category_changes], or leaves the row's own Category
    when the Type is not a key; it depends on nothing but the row and
    changes no other cell. *)
Theorem recategorizer_lookup (df : DataFrame) (i : nat) (r : Row) :
  df !! i = Some r ->
  exists r',
    recategorize df !! i = Some r' /\
    r' = set_Category r (rename_category r) /\
    (forall c, category_changes !! Type_ r = Some c -> Category r' = c) /\
    (category_changes !! Type_ r = None -> Category r' = Category r).
Proof.
  intros Hi. exists (set_Category r (rename_category r)).
  split; [|split; [reflexivity|split]].
  - rewrite recategorize_rows, lookup_map, Hi. reflexivity.
  - intros c Hc. simpl. unfold rename_category. now rewrite Hc.
  - intros Hc. simpl. unfold rename_category. now rewrite Hc.
Qed.

Lemma recategorizer_lookup_witness :
  exists r',
    recategorize [mkRow "Solar" "PV Fixed" (Q2Qc 5) 0 0;
                  mkRow "Coal" "IGCC" 0 (Q2Qc 4) (Q2Qc 10)] !! 0%nat = Some r' /\
    Category r' = "Solar PV"%string.
Proof.
  destruct (recategorizer_lookup
              [mkRow "Solar" "PV Fixed" (Q2Qc 5) 0 0;
               mkRow "Coal" "IGCC" 0 (Q2Qc 4) (Q2Qc 10)] 0
              (mkRow "Solar" "PV Fixed" (Q2Qc 5) 0 0) eq_refl)
    as (r' & Hl & _ & Hkey & _).
  exists r'. split; [exact Hl|]. apply Hkey. vm_compute. reflexivity.
Defined.

(** ** Aggregator *)

(** Every entry of the keyed list, before or after the sort, pairs a
    category of the frame with that category's array. *)
Lemma keyed_entry (csv : DataFrame) (x : string * list Qc) :
  In x (zip (lcoe_keys csv) (lcoe_values csv)) \/ In x (keyed_lcoe_values csv) ->
  In (fst x) (map Category (df_lcoe csv)) /\
  snd x = get_lcoe_by_category (df_lcoe csv) (fst x).
Proof.
  intros H.
  assert (Hz : In x (zip (lcoe_keys csv) (lcoe_values csv))).
  { destruct H as [H|H]; [exact H|].
    unfold keyed_lcoe_values in H.
    eapply Permutation_in; [apply sorted_Permutation | exact H]. }
  unfold lcoe_values in Hz. apply zip_map_In in Hz. destruct Hz as [Hk Hv].
  split; [now apply lcoe_keys_In | exact Hv].
Qed.

Lemma group_length (csv : DataFrame) (k : string) :
  In k (map Category (df_lcoe csv)) ->
  (3 <= length (get_lcoe_by_category (df_lcoe csv) k))%nat.
Proof.
  intros H. apply rows_of_nonempty in H.
  rewrite get_lcoe_by_category_length. lia.
Qed.

(** C6. The array of a category has three entries per row of that
    category, the rows being those that survive the filter and carry
    the category after the recategorization; over all category keys the
    array lengths add up to three times the number of rows that survive
    the filter. *)
Theorem group_sizes (csv : DataFrame) :
  (forall c, length (get_lcoe_by_category (df_lcoe csv) c)
             = (3 * length (rows_of c (df_recategorized csv)))%nat) /\
  sum_list (map length (lcoe_values csv)) = (3 * length (df_filtered csv))%nat.
Proof.
  split.
  - intros c. rewrite get_lcoe_by_category_length. unfold df_lcoe.
    now rewrite rows_of_impute, length_map.
  - unfold lcoe_values. rewrite map_map.
    rewrite (map_ext _ _ (get_lcoe_by_category_length (df_lcoe csv))).
    rewrite <- df_lcoe_length.
    rewrite <- (rows_of_partition (lcoe_keys csv) (df_lcoe csv)).
    + apply sum_list_map_scale.
    + apply unique_NoDup.
    + intros c Hc. now apply lcoe_keys_In.
Qed.

(** C7. The array of a category is, in this order, the imputed low
    values, the imputed point values and the imputed high values of the
    category's rows, each run in row order. *)
Theorem aggregated_layout (csv : DataFrame) (c : string) :
  rows_of c (df_lcoe csv) = map impute_row (rows_of c (df_recategorized csv)) /\
  get_lcoe_by_category (df_lcoe csv) c
  = map LCOE_Low (rows_of c (df_lcoe csv))
    ++ map LCOE (rows_of c (df_lcoe csv))
    ++ map LCOE_High (rows_of c (df_lcoe csv)).
Proof.
  split; [apply rows_of_impute | reflexivity].
Qed.

(** C10. Every entry of the keyed list, as the sort key reads it and as
    the mean annotation reads it after the sort, pairs a category that
    occurs in the frame with that category's array; the array has at
    least three entries, so the length the script divides by is not
    zero and the mean is defined. *)
Theorem groups_nonempty (csv : DataFrame) (x : string * list Qc) :
  x ∈ zip (lcoe_keys csv) (lcoe_values csv) \/ x ∈ keyed_lcoe_values csv ->
  fst x ∈ map Category (df_lcoe csv) /\
  snd x = get_lcoe_by_category (df_lcoe csv) (fst x) /\
  (3 <= length (snd x))%nat /\
  Qc_of_nat (length (snd x)) <> 0 /\
  is_Some (mean_value (snd x)).
Proof.
  rewrite !list_elem_of_In. intros H.
  destruct (keyed_entry csv x H) as [Hk Hv].
  pose proof (group_length csv (fst x) Hk) as Hlen. rewrite <- Hv in Hlen.
  repeat split; try assumption.
  - apply Qc_of_nat_nonzero. lia.
  - destruct (snd x); [simpl in Hlen; lia | eexists; reflexivity].
Qed.

Lemma groups_nonempty_witness :
  let csv := [mkRow "Coal" "IGCC" 0 (Q2Qc 4) (Q2Qc 10);
              mkRow "Coal" "Fusion" (Q2Qc 20) 0 0;
              mkRow "Solar" "PV Fixed" (Q2Qc 5) 0 0] in
  let x := ("Solar PV"%string, [Q2Qc 5; Q2Qc 5; Q2Qc 5]) in
  x ∈ keyed_lcoe_values csv /\ (3 <= length (snd x))%nat /\ is_Some (mean_value (snd x)).
Proof.
  simpl.
  assert (H : ("Solar PV"%string, [Q2Qc 5; Q2Qc 5; Q2Qc 5])
              ∈ keyed_lcoe_values
                  [mkRow "Coal" "IGCC" 0 (Q2Qc 4) (Q2Qc 10);
                   mkRow "Coal" "Fusion" (Q2Qc 20) 0 0;
                   mkRow "Solar" "PV Fixed" (Q2Qc 5) 0 0]).
  { compute_done. }
  split; [exact H|].
  destruct (groups_nonempty _ _ (or_intror H)) as (_ & _ & Hlen & _ & Hm).
  split; [exact Hlen | exact Hm].
Defined.

(** * Further properties of the transform *)

(** ** Filter *)

Lemma filter_skipped_sublist (df : DataFrame) : sublist (filter_skipped df) df.
Proof.
  unfold filter_skipped.
  induction df as [|r df IH]; cbn [List.filter]; [constructor|].
  destruct (negb (isin (Type_ r) skipped_types));
    [apply sublist_skip | apply sublist_cons]; exact IH.
Qed.

Lemma filter_skipped_count (df : DataFrame) :
  (length (filter_skipped df)
   + length (List.filter (fun r => isin (Type_ r) skipped_types) df)
   = length df)%nat.
Proof.
  unfold filter_skipped.
  induction df as [|r df IH]; cbn [List.filter]; [reflexivity|].
  destruct (isin (Type_ r) skipped_types); cbn [negb length]; lia.
Qed.

(** X1. The filter keeps the rows whose Type is not skipped, all of them and
    in their order: the result is a sublist of the frame, a row is in it
    exactly when it is in the frame with a Type outside the list, and
    the rows kept and the rows dropped add up to the frame. *)
Theorem filter_keeps_the_rest (df : DataFrame) :
  sublist (filter_skipped df) df /\
  (forall r, r ∈ filter_skipped df <-> r ∈ df /\ Type_ r ∉ skipped_types) /\
  (length (filter_skipped df)
   + length (List.filter (fun r => isin (Type_ r) skipped_types) df)
   = length df)%nat.
Proof.
  split; [apply filter_skipped_sublist|].
  split; [intros r; apply filter_skipped_elem_of | apply filter_skipped_count].
Qed.

Lemma filter_skipped_clean (df : DataFrame) :
  Forall (fun r => Type_ r ∉ skipped_types) df -> filter_skipped df = df.
Proof.
  unfold filter_skipped.
  induction 1 as [|r df Hr _ IH]; cbn [List.filter]; [reflexivity|].
  rewrite <- isin_elem_of, not_true_iff_false in Hr. rewrite Hr.
  cbn [negb]. now rewrite IH.
Qed.

Lemma filter_skipped_Forall (df : DataFrame) :
  Forall (fun r => Type_ r ∉ skipped_types) (filter_skipped df).
Proof.
  apply Forall_forall. intros r Hr.
  apply filter_skipped_elem_of in Hr. apply Hr.
Qed.

(** X2. Filtering twice is filtering once, and the filter changes a frame
    exactly when the frame holds a row of a skipped Type. *)
Theorem filter_skipped_idempotent (df : DataFrame) :
  filter_skipped (filter_skipped df) = filter_skipped df /\
  (filter_skipped df = df <-> Forall (fun r => Type_ r ∉ skipped_types) df).
Proof.
  split; [apply filter_skipped_clean, filter_skipped_Forall|].
  split; [|apply filter_skipped_clean].
  intros H. rewrite <- H. apply filter_skipped_Forall.
Qed.

(** ** Recategorizer *)

(** The recategorizer applied to one row. *)
Lemma recategorize_lookup (df : DataFrame) (i : nat) :
  recategorize df !! i
  = (fun r => set_Category r (rename_category r)) <$> df !! i.
Proof. rewrite recategorize_rows. apply lookup_map. Qed.

Lemma rename_category_impute_row (r : Row) :
  rename_category (impute_row r) = rename_category r.
Proof. destruct r. reflexivity. Qed.

Lemma filter_skipped_map (g : Row -> Row) (df : DataFrame) :
  (forall r, Type_ (g r) = Type_ r) ->
  filter_skipped (map g df) = map g (filter_skipped df).
Proof.
  intros Hg. unfold filter_skipped.
  induction df as [|r df IH]; cbn [List.filter map]; [reflexivity|].
  rewrite Hg. destruct (negb (isin (Type_ r) skipped_types));
    cbn [map]; now rewrite IH.
Qed.

(** X3. The three stages before the aggregation can be run in any order:
    the recategorizer reads Type and Category and writes Category, the
    imputer reads and writes the numeric columns, the filter reads
    Type. *)
Theorem stages_commute (df : DataFrame) :
  impute (recategorize df) = recategorize (impute df) /\
  filter_skipped (recategorize df) = recategorize (filter_skipped df) /\
  filter_skipped (impute df) = impute (filter_skipped df).
Proof.
  rewrite !impute_rows, !recategorize_rows. repeat split.
  - rewrite !map_map. apply map_ext. intros r.
    rewrite rename_category_impute_row. now destruct r.
  - now apply filter_skipped_map.
  - apply filter_skipped_map. now intros [].
Qed.

(** X4. Recategorizing a second time changes nothing: the new Category is
    looked up by Type, which the first pass left alone. *)
Theorem recategorize_idempotent (df : DataFrame) :
  recategorize (recategorize df) = recategorize df.
Proof.
  rewrite !recategorize_rows, map_map. apply map_ext. intros [c t p l h].
  unfold rename_category, set_Category. cbn [Type_ Category LCOE LCOE_Low LCOE_High].
  now destruct (category_changes !! t).
Qed.

Lemma category_changes_values (t c : string) :
  category_changes !! t = Some c -> c ∈ plot_categories.
Proof.
  assert (H : map_Forall (fun _ c => c ∈ plot_categories) category_changes)
    by compute_done.
  apply H.
Qed.

(** X5. After the recategorization a row carries either the Category it had
    in the file (its Type is not a key of the table) or one of the six
    category names of the plot (its Type is a key). *)
Theorem recategorized_names (df : DataFrame) (i : nat) (r : Row) :
  df !! i = Some r ->
  exists r', recategorize df !! i = Some r' /\
    ((category_changes !! Type_ r = None /\ Category r' = Category r) \/
     (is_Some (category_changes !! Type_ r) /\ Category r' ∈ plot_categories)).
Proof.
  intros Hi. exists (set_Category r (rename_category r)).
  rewrite recategorize_lookup, Hi. split; [reflexivity|].
  unfold rename_category. cbn [set_Category Category].
  destruct (category_changes !! Type_ r) as [c|] eqn:E.
  - right. split; [now eexists | now apply (category_changes_values (Type_ r))].
  - left. now split.
Qed.

Lemma recategorized_names_witness :
  exists r', recategorize [mkRow "MHK" "Tidal" (Q2Qc 30) 0 0] !! 0%nat = Some r' /\
             Category r' ∈ plot_categories.
Proof.
  destruct (recategorized_names [mkRow "MHK" "Tidal" (Q2Qc 30) 0 0] 0
              (mkRow "MHK" "Tidal" (Q2Qc 30) 0 0) eq_refl)
    as (r' & Hl & [[Hn _] | [_ Hc]]).
  - vm_compute in Hn. discriminate Hn.
  - exists r'. split; [exact Hl | exact Hc].
Defined.

(** X6. The table's entry for [Organic PV] never takes effect: that Type is
    also on the exclusion list, so no row that reaches the recategorizer
    has it, and the recategorizer gives the same result without the
    entry. *)
Theorem organic_pv_entry_unused (csv : DataFrame) (r : Row) :
  r ∈ df_filtered csv ->
  Type_ r <> "Organic PV"%string /\
  rename_category r
  = match delete "Organic PV"%string category_changes !! Type_ r with
    | Some c => c
    | None => Category r
    end.
Proof.
  intros Hr. apply filter_skipped_elem_of in Hr. destruct Hr as [_ Hr].
  assert (Hne : Type_ r <> "Organic PV"%string).
  { intros E. apply Hr. rewrite E. apply isin_elem_of. reflexivity. }
  split; [exact Hne|]. unfold rename_category.
  rewrite lookup_delete_ne by congruence. reflexivity.
Qed.

Lemma organic_pv_entry_unused_witness :
  let r := mkRow "Solar" "PV Fixed" (Q2Qc 5) 0 0 in
  r ∈ df_filtered [mkRow "Solar" "Organic PV" (Q2Qc 9) 0 0; r] /\
  Type_ r <> "Organic PV"%string.
Proof.
  cbv zeta.
  assert (H : mkRow "Solar" "PV Fixed" (Q2Qc 5) 0 0
              ∈ df_filtered [mkRow "Solar" "Organic PV" (Q2Qc 9) 0 0;
                             mkRow "Solar" "PV Fixed" (Q2Qc 5) 0 0])
    by compute_done.
  split; [exact H|]. exact (proj1 (organic_pv_entry_unused _ _ H)).
Defined.

(** ** Imputer *)

Lemma impute_row_cells (r : Row) :
  (0 < LCOE r -> LCOE (impute_row r) = LCOE r) /\
  (0 < LCOE_Low r -> LCOE_Low (impute_row r) = LCOE_Low r) /\
  (0 < LCOE_High r -> LCOE_High (impute_row r) = LCOE_High r) /\
  (LCOE r <= 0 -> LCOE (impute_row r) = (LCOE_Low r + LCOE_High r) / two) /\
  (LCOE_Low r <= 0 -> LCOE_Low (impute_row r) = LCOE (impute_row r)) /\
  (LCOE_High r <= 0 -> LCOE_High (impute_row r) = LCOE (impute_row r)).
Proof.
  destruct r as [c t p l h]. cbn [LCOE LCOE_Low LCOE_High].
  split_presence; repeat split; intros H;
    solve [ reflexivity | exfalso; qc_lra ].
Qed.

(** X7. Imputation never overwrites a value that is present: a cell that is
    > 0 is kept.  A missing point becomes the midpoint of the two bounds
    as they stand in the file, and a missing bound becomes the point as
    it stands after the first pass. *)
Theorem imputation_cells (df : DataFrame) (i : nat) (r : Row) :
  df !! i = Some r ->
  exists r', impute df !! i = Some r' /\
    (0 < LCOE r -> LCOE r' = LCOE r) /\
    (0 < LCOE_Low r -> LCOE_Low r' = LCOE_Low r) /\
    (0 < LCOE_High r -> LCOE_High r' = LCOE_High r) /\
    (LCOE r <= 0 -> LCOE r' = (LCOE_Low r + LCOE_High r) / two) /\
    (LCOE_Low r <= 0 -> LCOE_Low r' = LCOE r') /\
    (LCOE_High r <= 0 -> LCOE_High r' = LCOE r').
Proof.
  intros Hi. exists (impute_row r). split; [|apply impute_row_cells].
  rewrite impute_rows, lookup_map, Hi. reflexivity.
Qed.

Lemma imputation_cells_witness :
  exists r', impute [mkRow "Wind" "Onshore Wind" (Q2Qc 6) 0 (Q2Qc 9)] !! 0%nat
             = Some r' /\
             LCOE r' = Q2Qc 6 /\ LCOE_Low r' = LCOE r' /\ LCOE_High r' = Q2Qc 9.
Proof.
  destruct (imputation_cells [mkRow "Wind" "Onshore Wind" (Q2Qc 6) 0 (Q2Qc 9)] 0
              (mkRow "Wind" "Onshore Wind" (Q2Qc 6) 0 (Q2Qc 9)) eq_refl)
    as (r' & Hl & Hp & _ & Hh & _ & Hlo & _).
  exists r'. split; [exact Hl|]. split; [|split].
  - apply Hp. reflexivity.
  - apply Hlo. vm_compute. discriminate.
  - apply Hh. reflexivity.
Defined.

(** ** Category keys *)

Lemma unique_sublist (l : list string) : sublist (unique l) l.
Proof.
  induction l as [|x l IH]; cbn [unique]; [constructor|].
  apply sublist_skip. etransitivity; [|exact IH].
  generalize (unique l). intros u.
  induction u as [|y u IHu]; cbn [List.filter]; [constructor|].
  destruct (negb (String.eqb y x)); [apply sublist_skip | apply sublist_cons];
    exact IHu.
Qed.

(** X8. The category keys hold every Category of the final frame once, and
    nothing else; they are in the order of the Category column. *)
Theorem lcoe_keys_distinct (csv : DataFrame) :
  NoDup (lcoe_keys csv) /\
  (forall k, k ∈ lcoe_keys csv <-> exists r, r ∈ df_lcoe csv /\ Category r = k) /\
  sublist (lcoe_keys csv) (map Category (df_lcoe csv)).
Proof.
  split; [apply NoDup_ListNoDup, unique_NoDup|]. split.
  - intros k. rewrite list_elem_of_In, lcoe_keys_In, in_map_iff.
    split; intros (r & H1 & H2); exists r.
    + split; [now apply list_elem_of_In | exact H1].
    + split; [exact H2 | now apply list_elem_of_In].
  - rewrite df_lcoe_Category. apply unique_sublist.
Qed.

(** X9. A category that no row carries has an empty array, and the mean of
    an empty array is undefined (line 150 divides by its length). *)
Theorem absent_category_empty (df : DataFrame) (c : string) :
  c ∉ map Category df ->
  get_lcoe_by_category df c = [] /\
  mean_value (get_lcoe_by_category df c) = None.
Proof.
  intros Hc.
  assert (E : List.filter (fun r => String.eqb (Category r) c) df = []).
  { induction df as [|r df IH]; cbn [List.filter]; [reflexivity|].
    destruct (String.eqb_spec (Category r) c) as [Heq|_].
    - exfalso. apply Hc. rewrite <- Heq. apply list_elem_of_here.
    - apply IH. intros H. apply Hc. now apply list_elem_of_further. }
  unfold get_lcoe_by_category. rewrite E. split; reflexivity.
Qed.

Lemma absent_category_empty_witness :
  get_lcoe_by_category [mkRow "Coal" "IGCC" 0 (Q2Qc 4) (Q2Qc 10)] "Hydro" = [] /\
  mean_value (get_lcoe_by_category [mkRow "Coal" "IGCC" 0 (Q2Qc 4) (Q2Qc 10)] "Hydro")
  = None.
Proof.
  apply (absent_category_empty [mkRow "Coal" "IGCC" 0 (Q2Qc 4) (Q2Qc 10)] "Hydro").
  compute_done.
Defined.

(** ** Ranker *)

Lemma fst_zip_map {A B : Type} (f : A -> B) (ks : list A) :
  map fst (zip ks (map f ks)) = ks.
Proof. induction ks as [|k ks IH]; simpl; [reflexivity | now rewrite IH]. Qed.

Lemma lcoe_keys_ranked_Permutation (csv : DataFrame) :
  Permutation (lcoe_keys_ranked csv) (lcoe_keys csv).
Proof.
  unfold lcoe_keys_ranked, keyed_lcoe_values.
  rewrite (Permutation_map fst (sorted_Permutation rank_key _)).
  unfold lcoe_values. now rewrite fst_zip_map.
Qed.

Lemma lcoe_values_ranked_keys (csv : DataFrame) :
  lcoe_values_ranked csv
  = map (get_lcoe_by_category (df_lcoe csv)) (lcoe_keys_ranked csv).
Proof.
  unfold lcoe_values_ranked, lcoe_keys_ranked. rewrite map_map.
  apply map_ext_in. intros x Hx.
  now destruct (keyed_entry csv x (or_intror Hx)).
Qed.

(** X10. The ranking only reorders: the ranked entries are the key/array
    pairs of line 101 in another order, every category key occurs once
    among the ranked keys, and at each place the ranked array is the
    array of the ranked key. *)
Theorem ranking_reorders (csv : DataFrame) :
  Permutation (keyed_lcoe_values csv) (zip (lcoe_keys csv) (lcoe_values csv)) /\
  Permutation (lcoe_keys_ranked csv) (lcoe_keys csv) /\
  NoDup (lcoe_keys_ranked csv) /\
  length (lcoe_values_ranked csv) = length (lcoe_keys csv) /\
  lcoe_values_ranked csv
  = map (get_lcoe_by_category (df_lcoe csv)) (lcoe_keys_ranked csv).
Proof.
  pose proof (lcoe_keys_ranked_Permutation csv) as HP.
  split; [apply sorted_Permutation|]. split; [exact HP|]. split; [|split].
  - rewrite HP. apply NoDup_ListNoDup, unique_NoDup.
  - rewrite lcoe_values_ranked_keys, length_map. now rewrite HP.
  - apply lcoe_values_ranked_keys.
Qed.

(** ** Means *)

Lemma fold_plus_acc (xs : list Qc) (a : Qc) :
  fold_left Qcplus xs a = a + fold_left Qcplus xs 0.
Proof.
  revert a. induction xs as [|v xs IH]; intros a; cbn [fold_left]; [ring|].
  rewrite (IH (a + v)), (IH (0 + v)). ring.
Qed.

Lemma sum_cons (v : Qc) (xs : list Qc) : sum (v :: xs) = v + sum xs.
Proof.
  unfold sum. cbn [fold_left]. rewrite fold_plus_acc. ring.
Qed.

Lemma Qc_of_nat_S (n : nat) : Qc_of_nat (S n) = 1 + Qc_of_nat n.
Proof.
  apply this_eq. rewrite this_plus. unfold Qc_of_nat. cbn [this Q2Qc].
  rewrite !Qred_correct, Nat2Z.inj_succ. unfold Z.succ.
  rewrite inject_Z_plus. ring.
Qed.

Lemma Qc_of_nat_pos (n : nat) : (1 <= n)%nat -> 0 < Qc_of_nat n.
Proof.
  intros Hn. unfold Qclt, Qc_of_nat. cbn [this Q2Qc].
  rewrite !Qred_correct. unfold Qlt. simpl. lia.
Qed.

Lemma sum_lower (lo : Qc) (xs : list Qc) :
  Forall (fun v => lo <= v) xs -> lo * Qc_of_nat (length xs) <= sum xs.
Proof.
  induction 1 as [|v xs Hv _ IH].
  - cbn. rewrite Qcmult_0_r. apply Qcle_refl.
  - cbn [length]. rewrite Qc_of_nat_S, sum_cons.
    replace (lo * (1 + Qc_of_nat (length xs)))
      with (lo + lo * Qc_of_nat (length xs)) by ring.
    now apply Qcplus_le_compat.
Qed.

Lemma sum_pos (xs : list Qc) :
  Forall (fun v => 0 < v) xs -> xs <> [] -> 0 < sum xs.
Proof.
  intros H Hne.
  assert (H0 : 0 <= sum xs).
  { rewrite <- (Qcmult_0_l (Qc_of_nat (length xs))). apply sum_lower.
    eapply Forall_impl; [exact H|]. intros v. apply Qclt_le_weak. }
  destruct H as [|v xs Hv Hxs]; [congruence|].
  assert (H1 : 0 <= sum xs).
  { rewrite <- (Qcmult_0_l (Qc_of_nat (length xs))). apply sum_lower.
    eapply Forall_impl; [exact Hxs|]. intros w. apply Qclt_le_weak. }
  rewrite sum_cons. clear H0. qc_lra.
Qed.

Lemma mean_times_length (xs : list Qc) :
  xs <> [] -> sum xs / Qc_of_nat (length xs) * Qc_of_nat (length xs) = sum xs.
Proof.
  intros Hne. unfold Qcdiv. rewrite <- Qcmult_assoc, Qcmult_inv_l, Qcmult_1_r.
  - reflexivity.
  - apply Qc_of_nat_nonzero. destruct xs; [congruence | cbn; lia].
Qed.

Lemma reported_recategorized (r : Row) (c : string) :
  reported r -> reported (set_Category r c).
Proof. intros H. exact H. Qed.

Lemma df_lcoe_all_present (csv : DataFrame) :
  Forall reported (df_filtered csv) -> Forall all_present (df_lcoe csv).
Proof.
  intros H. unfold df_lcoe, df_recategorized.
  rewrite impute_rows, recategorize_rows, map_map.
  apply Forall_map. eapply Forall_impl; [exact H|].
  intros r Hr. apply impute_row_present. now apply reported_recategorized.
Qed.

Lemma get_lcoe_by_category_pos (df : DataFrame) (c : string) :
  Forall all_present df -> Forall (fun v => 0 < v) (get_lcoe_by_category df c).
Proof.
  intros H. unfold get_lcoe_by_category.
  assert (Hc : Forall all_present
                 (List.filter (fun r => String.eqb (Category r) c) df)).
  { rewrite Forall_forall in H. apply Forall_forall. intros r Hr.
    apply H. apply list_elem_of_In in Hr. apply filter_In in Hr.
    apply list_elem_of_In. apply Hr. }
  repeat apply Forall_app_2; apply Forall_map;
    (eapply Forall_impl; [exact Hc|]); intros r (Hp & Hl & Hh); assumption.
Qed.

Lemma mean_pos (a : list Qc) :
  a <> [] -> Forall (fun v => 0 < v) a ->
  exists m, mean_value a = Some m /\ 0 < m.
Proof.
  intros Hne H. exists (sum a / Qc_of_nat (length a)).
  split; [destruct a; [congruence | reflexivity]|].
  destruct (Qclt_le_dec 0 (sum a / Qc_of_nat (length a))) as [Hm|Hm];
    [exact Hm|exfalso].
  assert (Hn : 0 <= Qc_of_nat (length a)).
  { apply Qclt_le_weak, Qc_of_nat_pos. destruct a; [congruence | cbn; lia]. }
  pose proof (Qcmult_le_compat_r _ _ _ Hm Hn) as Hle.
  rewrite mean_times_length, Qcmult_0_l in Hle by exact Hne.
  exact (Qclt_not_le _ _ (sum_pos a H Hne) Hle).
Qed.

(** X13. When every surviving row reports a point estimate or both bounds,
    every value handed to the plot is > 0, and so is the mean of every
    category. *)
Theorem plotted_values_positive (csv : DataFrame) :
  Forall reported (df_filtered csv) ->
  Forall (fun a => Forall (fun v => 0 < v) a /\
                   exists m, mean_value a = Some m /\ 0 < m)
         (lcoe_values_ranked csv).
Proof.
  intros H. apply df_lcoe_all_present in H.
  apply Forall_forall. intros a Ha.
  apply list_elem_of_In in Ha. unfold lcoe_values_ranked in Ha.
  apply in_map_iff in Ha. destruct Ha as (x & <- & Hx).
  destruct (keyed_entry csv x (or_intror Hx)) as [Hk Hv].
  pose proof (group_length csv (fst x) Hk) as Hlen. rewrite <- Hv in Hlen.
  assert (Hpos : Forall (fun v => 0 < v) (snd x)).
  { rewrite Hv. now apply get_lcoe_by_category_pos. }
  split; [exact Hpos|]. apply mean_pos; [|exact Hpos].
  intros E. rewrite E in Hlen. cbn in Hlen. lia.
Qed.

Lemma plotted_values_positive_witness :
  let csv := [mkRow "Coal" "IGCC" 0 (Q2Qc 4) (Q2Qc 10);
              mkRow "Coal" "Fusion" 0 0 0;
              mkRow "Solar" "PV Fixed" (Q2Qc 5) 0 0] in
  Forall reported (df_filtered csv) /\
  Forall (fun a => Forall (fun v => 0 < v) a /\
                   exists m, mean_value a = Some m /\ 0 < m)
         (lcoe_values_ranked csv).
Proof.
  cbv zeta.
  assert (H : Forall reported
                (df_filtered [mkRow "Coal" "IGCC" 0 (Q2Qc 4) (Q2Qc 10);
                              mkRow "Coal" "Fusion" 0 0 0;
                              mkRow "Solar" "PV Fixed" (Q2Qc 5) 0 0])).
  { change (Forall reported [mkRow "Coal" "IGCC" 0 (Q2Qc 4) (Q2Qc 10);
                             mkRow "Solar" "PV Fixed" (Q2Qc 5) 0 0]).
    apply List.Forall_cons; [right; split; reflexivity|].
    apply List.Forall_cons; [left; reflexivity | apply List.Forall_nil]. }
  split; [exact H | exact (plotted_values_positive _ H)].
Defined.

(** ** What the renderer is handed *)

Lemma this_Qc_of_nat (n : nat) : (this (Qc_of_nat n) == inject_Z (Z.of_nat n))%Q.
Proof. unfold Qc_of_nat. cbn [this Q2Qc]. apply Qred_correct. Qed.

Lemma this_half_value : (this half == 1 # 2)%Q.
Proof. reflexivity. Qed.

Lemma Qc_of_nat_inj (a b : nat) : Qc_of_nat a = Qc_of_nat b -> a = b.
Proof.
  intros H. apply this_eq in H. rewrite !this_Qc_of_nat in H.
  apply (proj1 (inject_Z_injective _ _)) in H. lia.
Qed.

(** The key box sits half a step below the last category, on no
    category's place. *)
Lemma key_box_position_fresh (k n : nat) : Qc_of_nat k <> Qc_of_nat n - half.
Proof.
  intros H. apply this_eq in H. unfold Qcminus in H.
  rewrite this_plus, this_opp, !this_Qc_of_nat, this_half_value in H.
  unfold Qeq, Qplus, Qopp, inject_Z in H. cbn in H. lia.
Qed.

Lemma category_positions_NoDup (n : nat) : NoDup (map Qc_of_nat (seq 1 n)).
Proof.
  apply NoDup_ListNoDup, Finite.Injective_map_NoDup.
  - intros a b. apply Qc_of_nat_inj.
  - apply List.seq_NoDup.
Qed.

(** X14. The boxplot call of line 121 gets as many positions as arrays, one
    more than there are categories; the positions are pairwise distinct;
    no array is empty; and line 126 gets as many tick labels as tick
    places. *)
Theorem boxplot_arguments (csv : DataFrame) :
  length (boxplot_data csv) = length (boxplot_positions csv) /\
  length (boxplot_data csv) = S (length (lcoe_keys csv)) /\
  NoDup (boxplot_positions csv) /\
  Forall (fun a => a <> []) (boxplot_data csv) /\
  length (fst (yticks csv)) = length (snd (yticks csv)).
Proof.
  assert (Hlen : length (lcoe_values_ranked csv) = length (lcoe_keys csv)).
  { rewrite lcoe_values_ranked_keys, length_map.
    now rewrite (lcoe_keys_ranked_Permutation csv). }
  unfold boxplot_data, boxplot_positions, yticks. cbn [fst snd].
  rewrite !length_app, !length_map, !length_seq. cbn [length].
  split; [reflexivity|]. split; [lia|]. split; [|split].
  - apply NoDup_app. split; [apply category_positions_NoDup|]. split.
    + intros p Hp Hk. apply list_elem_of_In, in_map_iff in Hp.
      destruct Hp as (k & <- & _). apply list_elem_of_singleton in Hk.
      exact (key_box_position_fresh _ _ Hk).
    + apply NoDup_singleton.
  - apply Forall_app. split.
    + apply Forall_forall. intros a Ha.
      apply list_elem_of_In in Ha. unfold lcoe_values_ranked in Ha.
      apply in_map_iff in Ha. destruct Ha as (x & <- & Hx).
      destruct (keyed_entry csv x (or_intror Hx)) as [Hk Hv].
      pose proof (group_length csv (fst x) Hk) as Hl. rewrite <- Hv in Hl.
      intros E. rewrite E in Hl. cbn in Hl. lia.
    + apply Forall_singleton. discriminate.
  - unfold lcoe_values_ranked, lcoe_keys_ranked. now rewrite !length_map.
Qed.

Lemma inject_nat_ge_1 (k : nat) :
  (1 <= k)%nat -> (1 <= inject_Z (Z.of_nat k))%Q.
Proof. intros H. change 1%Q with (inject_Z 1). rewrite <- Zle_Qle. lia. Qed.

(** X15. With at least one category, every box, the key box included, is
    placed strictly inside the vertical limits of line 128. *)
Theorem boxplot_positions_in_view (csv : DataFrame) :
  lcoe_keys csv <> [] ->
  Forall (fun p => fst (ylim csv) < p /\ p < snd (ylim csv))
         (boxplot_positions csv).
Proof.
  intros Hne.
  assert (Hlen : length (lcoe_values_ranked csv) = length (lcoe_keys csv)).
  { rewrite lcoe_values_ranked_keys, length_map.
    now rewrite (lcoe_keys_ranked_Permutation csv). }
  assert (Hk : length (lcoe_keys_ranked csv) = length (lcoe_keys csv)).
  { now rewrite (lcoe_keys_ranked_Permutation csv). }
  unfold boxplot_positions, ylim. cbn [fst snd]. rewrite Hlen, Hk.
  assert (Hn : (1 <= length (lcoe_keys csv))%nat).
  { destruct (lcoe_keys csv); [congruence | cbn; lia]. }
  set (n := length (lcoe_keys csv)) in *.
  assert (Hqn : (1 <= inject_Z (Z.of_nat n))%Q) by now apply inject_nat_ge_1.
  apply Forall_app. split.
  - apply Forall_forall. intros p Hp.
    apply list_elem_of_In, in_map_iff in Hp. destruct Hp as (k & <- & Hk').
    apply in_seq in Hk'.
    assert (Hqk : (1 <= inject_Z (Z.of_nat k))%Q) by (apply inject_nat_ge_1; lia).
    assert (Hqkn : (inject_Z (Z.of_nat k) <= inject_Z (Z.of_nat n))%Q)
      by (rewrite <- Zle_Qle; lia).
    unfold Qclt. rewrite this_plus, !this_Qc_of_nat, this_half_value.
    cbn [this Q2Qc]. rewrite Qred_correct. split; lra.
  - apply Forall_singleton. unfold Qclt, Qcminus.
    rewrite !this_plus, this_opp, !this_Qc_of_nat, this_half_value.
    cbn [this Q2Qc]. rewrite Qred_correct. split; lra.
Qed.

Lemma boxplot_positions_in_view_witness :
  let csv := [mkRow "Coal" "IGCC" 0 (Q2Qc 4) (Q2Qc 10);
              mkRow "Solar" "PV Fixed" (Q2Qc 5) 0 0] in
  lcoe_keys csv = ["Coal"; "Solar PV"]%string /\
  Forall (fun p => fst (ylim csv) < p /\ p < snd (ylim csv))
         (boxplot_positions csv).
Proof.
  cbv zeta. split; [vm_compute; reflexivity|].
  apply boxplot_positions_in_view. vm_compute. discriminate.
Defined.

(** * Properties on binary64 cells *)

Module F64Facts.
Import F64.

(** ** The order of floats *)













(** ** Imputer *)

Lemma assign_apply_f64 {A : Type} (upd : Row -> A -> Row) (f : Row -> A)
    (df : list Row) :
  assign_column upd df (apply_rows f df) = map (fun r => upd r (f r)) df.
Proof.
  unfold assign_column, apply_rows.
  induction df as [|r df IH]; simpl; [reflexivity | now rewrite IH].
Qed.


Lemma recategorize_rows_f64 (df : list Row) :
  recategorize df = map (fun r => set_Category r (rename_category r)) df.
Proof. apply assign_apply_f64. Qed.







(** ** The sort *)

Section SortedFacts.
Context {A : Type} (key : A -> spec_float).







End SortedFacts.

(** ** Ranker *)


(** The two roundings on a near-tie, as mantissa and exponent:
    4578659621160005 * 2^-50 prints as 4.0666666666666673 and
    4578659621160004 * 2^-50 as 4.0666666666666664. *)
Example shares_and_means_near_tie :
  sum_of_shares [dec 30 1; dec 42 1; dec 50 1]
    = S754_finite false 4578659621160005 (-50) /\
  sum_of_shares [dec 34 1; dec 44 1; dec 44 1]
    = S754_finite false 4578659621160004 (-50) /\
  mean_value [dec 30 1; dec 42 1; dec 50 1]
    = Some (S754_finite false 4578659621160004 (-50)) /\
  mean_value [dec 34 1; dec 44 1; dec 44 1]
    = Some (S754_finite false 4578659621160005 (-50)).
Proof. repeat split; vm_compute; reflexivity. Qed.






End F64Facts.
